(** * ollama-api-proxy: the OpenAI-compatible chat endpoint of
      [api_server_with_key.py], embedded and verified.

    The module is glue code around three libraries: FastAPI (routing,
    dependency injection, the [HTTPBearer] security scheme), pydantic (the
    model classes) and requests (the outbound call).  The embedding follows
    the source line by line; what the libraries do on the calls the source
    makes is written out in small, separately named definitions. *)

From Stdlib Require Import String Ascii List ZArith Bool Lia DecimalString.
Import ListNotations.
Open Scope string_scope.
Open Scope Z_scope.

Set Warnings "-register-all".

(** ** Python values that travel as JSON

    Request bodies, the outbound payload and the backend's answer are JSON
    documents; after decoding they are Python dicts, lists, strings, numbers,
    booleans and [None].  A dict is an association list looked up by its
    first matching key. *)

Inductive json : Type :=
| JNull
| JBool (b : bool)
| JNum (n : Z)
| JStr (s : string)
| JArr (items : list json)
| JObj (fields : list (string * json)).

Fixpoint dict_get (d : list (string * json)) (key : string) : option json :=
  match d with
  | [] => None
  | (k, v) :: rest => if String.eqb k key then Some v else dict_get rest key
  end.

(** ** Exceptions and the exception monad *)

Inductive RequestExceptionKind : Type :=
| ConnectionError
| Timeout
| HTTPError
| JSONDecodeError.

Inductive exn : Type :=
| HTTPException (status_code : Z) (detail : string)
                (headers : list (string * string))
| RequestException (kind : RequestExceptionKind) (text : string)
| AttributeError (text : string)
| ValidationError (text : string).

Definition Exc (A : Type) : Type := exn + A.

Definition ret {A : Type} (a : A) : Exc A := inr a.
Definition raise {A : Type} (e : exn) : Exc A := inl e.

Definition bind {A B : Type} (m : Exc A) (k : A -> Exc B) : Exc B :=
  match m with
  | inl e => inl e
  | inr a => k a
  end.

Declare Scope exc_scope.
Delimit Scope exc_scope with exc.
Notation "x <- m ;; k" := (bind m (fun x => k))
  (at level 100, m at next level, right associativity) : exc_scope.
Notation "m ;;; k" := (bind m (fun _ => k))
  (at level 100, right associativity) : exc_scope.

(** [try: body  except requests.exceptions.RequestException as e: handler]:
    every subclass of [RequestException] is caught, [str(e)] is handed to the
    handler, and any other exception passes through. *)
Definition try_except_RequestException {A : Type}
    (body : Exc A) (handler : string -> Exc A) : Exc A :=
  match body with
  | inl (RequestException _ e) => handler e
  | other => other
  end.

(** [obj.get(key, default)] on a decoded JSON value: only a dict has the
    method. *)
Definition py_get (obj : json) (key : string) (default : json) : Exc json :=
  match obj with
  | JObj d =>
      match dict_get d key with
      | Some v => ret v
      | None => ret default
      end
  | _ => raise (AttributeError "object has no attribute 'get'")
  end.

(** ** Module-level constants *)

Definition OLLAMA_CHAT_ENDPOINT : string := "http://127.0.0.1:11434/api/chat".
Definition HTTP_401_UNAUTHORIZED : Z := 401.

(** ** The pydantic models

    A field annotated [str] accepts a JSON string, a [Literal[...]] field one
    of the listed strings, a [List[...]] field a JSON array; keys a model does
    not declare are ignored. *)

Module ChatMessage.
Record t : Type := { role : string; content : string }.

Definition roles : list string := ["user"; "assistant"; "system"].

Definition validate (v : json) : option t :=
  match v with
  | JObj d =>
      match dict_get d "role", dict_get d "content" with
      | Some (JStr r), Some (JStr c) =>
          if existsb (String.eqb r) roles
          then Some {| role := r; content := c |}
          else None
      | _, _ => None
      end
  | _ => None
  end.

Fixpoint validate_list (vs : list json) : option (list t) :=
  match vs with
  | [] => Some []
  | v :: rest =>
      match validate v, validate_list rest with
      | Some m, Some ms => Some (m :: ms)
      | _, _ => None
      end
  end.

(** [msg.dict()] *)
Definition dict (msg : t) : json :=
  JObj [("role", JStr (role msg)); ("content", JStr (content msg))].
End ChatMessage.

Module ChatCompletionRequest.
Record t : Type := { model : string; messages : list ChatMessage.t }.

Definition validate (v : json) : option t :=
  match v with
  | JObj d =>
      match dict_get d "model", dict_get d "messages" with
      | Some (JStr m), Some (JArr vs) =>
          match ChatMessage.validate_list vs with
          | Some ms => Some {| model := m; messages := ms |}
          | None => None
          end
      | _, _ => None
      end
  | _ => None
  end.
End ChatCompletionRequest.

Module ResponseChatMessage.
Record t : Type := { role : string; content : string }.

(** [ResponseChatMessage(role=..., content=...)] *)
Definition new (role_arg content_arg : json) : Exc t :=
  match role_arg, content_arg with
  | JStr r, JStr c =>
      if String.eqb r "assistant"
      then ret {| role := r; content := c |}
      else raise (ValidationError "role: Input should be 'assistant'")
  | JStr _, _ => raise (ValidationError "content: Input should be a valid string")
  | _, _ => raise (ValidationError "role: Input should be 'assistant'")
  end.

Definition dict (m : t) : json :=
  JObj [("role", JStr (role m)); ("content", JStr (content m))].
End ResponseChatMessage.

Module ChatCompletionChoice.
Record t : Type :=
  { index : Z; message : ResponseChatMessage.t; finish_reason : string }.

(** [ChatCompletionChoice(message=...)]: [index] and [finish_reason] take
    their declared defaults. *)
Definition new (message_arg : ResponseChatMessage.t) : t :=
  {| index := 0; message := message_arg; finish_reason := "stop" |}.

Definition dict (c : t) : json :=
  JObj [("index", JNum (index c));
        ("message", ResponseChatMessage.dict (message c));
        ("finish_reason", JStr (finish_reason c))].
End ChatCompletionChoice.

(** The two defaults of [ChatCompletionResponse] that call a function,
    [f"chatcmpl-{uuid.uuid4()}"] and [int(time.time())], are expressions in
    the class body: Python evaluates them when the [class] statement runs,
    that is once, while the module is imported.  Their values are part of the
    module's state, next to [SERVER_API_KEY]. *)
Record Globals : Type :=
  { SERVER_API_KEY : option string;
    ChatCompletionResponse_id : string;
    ChatCompletionResponse_created : Z }.

(** Importing the module: [os.getenv("API")], and the class body of
    [ChatCompletionResponse] run against the clock and the uuid generator of
    that moment. *)
Definition import_module (environ_API : option string)
    (uuid4 : string) (time : Z) : Globals :=
  {| SERVER_API_KEY := environ_API;
     ChatCompletionResponse_id := "chatcmpl-" ++ uuid4;
     ChatCompletionResponse_created := time |}.

Module ChatCompletionResponse.
Record t : Type :=
  { id : string;
    object : string;
    created : Z;
    model : string;
    choices : list ChatCompletionChoice.t }.

(** [ChatCompletionResponse(model=..., choices=[...])]: the three fields
    not passed take the class's stored defaults. *)
Definition new (g : Globals) (model_arg : json)
    (choices_arg : list ChatCompletionChoice.t) : Exc t :=
  match model_arg with
  | JStr m =>
      ret {| id := ChatCompletionResponse_id g;
             object := "chat.completion";
             created := ChatCompletionResponse_created g;
             model := m;
             choices := choices_arg |}
  | _ => raise (ValidationError "model: Input should be a valid string")
  end.

Definition dict (r : t) : json :=
  JObj [("id", JStr (id r));
        ("object", JStr (object r));
        ("created", JNum (created r));
        ("model", JStr (model r));
        ("choices", JArr (map ChatCompletionChoice.dict (choices r)))].
End ChatCompletionResponse.

(** ** The requests library, as far as the handler calls it *)

Module requests.
Record Call : Type := { url : string; json_arg : json; timeout : Z }.

(** A received answer.  [body] is the decoded JSON document, or the decoder's
    message when the bytes are not JSON. *)
Record Response : Type :=
  { status_code : Z; reason : string; response_url : string;
    body : string + json }.

(** What [requests.post] does with a call: it raises one of its own
    exceptions (connection refused, timeout, ...) or returns the answer. *)
Inductive Outcome : Type :=
| Raised (kind : RequestExceptionKind) (text : string)
| Answered (r : Response).

Definition string_of_Z (z : Z) : string := NilZero.string_of_int (Z.to_int z).

(** [raise_for_status]: the message is built for a 4xx or 5xx status and
    left empty otherwise; a non-empty message is raised as [HTTPError]. *)
Definition http_error_msg (r : Response) : string :=
  if (400 <=? status_code r) && (status_code r <? 500) then
    string_of_Z (status_code r) ++ " Client Error: " ++ reason r
      ++ " for url: " ++ response_url r
  else if (500 <=? status_code r) && (status_code r <? 600) then
    string_of_Z (status_code r) ++ " Server Error: " ++ reason r
      ++ " for url: " ++ response_url r
  else "".

Definition raise_for_status (r : Response) : Exc unit :=
  if String.eqb (http_error_msg r) "" then ret tt
  else raise (RequestException HTTPError (http_error_msg r)).

Definition json (r : Response) : Exc json :=
  match body r with
  | inl text => raise (RequestException JSONDecodeError text)
  | inr v => ret v
  end.
End requests.

(** What a request handler can reach outside the module while it runs: the
    uuid generator, the clock, and the network with the backend behind it. *)
Record World : Type :=
  { uuid4 : string;
    time : Z;
    network : requests.Call -> requests.Outcome }.

Definition requests_post (w : World) (c : requests.Call)
    : Exc requests.Response :=
  match network w c with
  | requests.Raised kind text => raise (RequestException kind text)
  | requests.Answered r => ret r
  end.

(** ** Authentication: [check_api_key] *)

Module HTTPAuthorizationCredentials.
Record t : Type := { scheme : string; credentials : string }.
End HTTPAuthorizationCredentials.

(** [s != k] for a [str] and an [Optional[str]]: a string never equals
    [None]. *)
Definition str_ne_optional (s : string) (k : option string) : bool :=
  match k with
  | Some k' => negb (String.eqb s k')
  | None => true
  end.

Definition check_api_key (g : Globals)
    (credentials : HTTPAuthorizationCredentials.t) : Exc string :=
  if negb (String.eqb (HTTPAuthorizationCredentials.scheme credentials) "Bearer")
     || str_ne_optional (HTTPAuthorizationCredentials.credentials credentials)
                        (SERVER_API_KEY g)
  then raise (HTTPException HTTP_401_UNAUTHORIZED
                "Invalid or missing API key"
                [("WWW-Authenticate", "Bearer")])
  else ret (HTTPAuthorizationCredentials.credentials credentials).

(** ** The handler: [create_chat_completion]

    The result comes with the list of outbound calls the handler issued.
    (The [print] to the console is not modelled.) *)

Definition ollama_payload (request : ChatCompletionRequest.t) : json :=
  JObj [("model", JStr (ChatCompletionRequest.model request));
        ("messages",
         JArr (map ChatMessage.dict (ChatCompletionRequest.messages request)));
        ("stream", JBool false)].

Definition ollama_call (request : ChatCompletionRequest.t) : requests.Call :=
  {| requests.url := OLLAMA_CHAT_ENDPOINT;
     requests.json_arg := ollama_payload request;
     requests.timeout := 300 |}.

Definition create_chat_completion (g : Globals) (w : World)
    (request : ChatCompletionRequest.t)
    : Exc ChatCompletionResponse.t * list requests.Call :=
  (try_except_RequestException
     (response <- requests_post w (ollama_call request) ;;
      requests.raise_for_status response ;;;
      ollama_data <- requests.json response ;;
      message <- py_get ollama_data "message" (JObj []) ;;
      assistant_message_content <- py_get message "content" (JStr "") ;;
      actual_model_used <-
        py_get ollama_data "model"
               (JStr (ChatCompletionRequest.model request)) ;;
      response_message <-
        ResponseChatMessage.new (JStr "assistant") assistant_message_content ;;
      ChatCompletionResponse.new g actual_model_used
        [ChatCompletionChoice.new response_message])%exc
     (fun e =>
        raise (HTTPException 503 ("Error connecting to Ollama: " ++ e) [])),
   [ollama_call request]).

(** ** The route [POST /chat/completions]

    FastAPI resolves the parameters declared with [Depends] first: the
    security scheme reads the [Authorization] header, [check_api_key] gets
    its credentials, and an [HTTPException] from either ends the request.
    Then the body is validated against [ChatCompletionRequest]; a failure is
    answered with 422.  Only then the handler runs.  An [HTTPException] is
    answered with its status, detail and headers; any other exception that
    leaves the handler is answered by the server with status 500.

    Before any of this the framework decodes the body it received.  Bytes
    that are not JSON are answered 422 at once, and any other failure to
    read the body 400, in both cases before the dependencies are resolved.
    [Request] is a request whose body has been decoded; [RawRequest] is the
    request as it arrives, and [app_post] is the route from there.

    The detail of a 422 is, in the framework, a list of validation errors;
    that list is not modelled and the text in its place is a stand-in. *)

Record Request : Type := { Authorization : option string; body : json }.

(** What decoding makes of the bytes of a body: a JSON document ([None] for
    an empty body), a JSON decoding error, or another error while the body is
    read (bytes that are no text). *)
Inductive RawBody : Type :=
| Decoded (document : json)
| NotJSON (text : string)
| Unreadable.

Record RawRequest : Type :=
  { raw_Authorization : option string; raw_body : RawBody }.

Inductive Reply : Type :=
| Ok200 (r : ChatCompletionResponse.t)
| Error (status : Z) (detail : string) (headers : list (string * string))
| InternalServerError (e : exn).

Definition status_of (r : Reply) : Z :=
  match r with
  | Ok200 _ => 200
  | Error status _ _ => status
  | InternalServerError _ => 500
  end.

Definition headers_of (r : Reply) : list (string * string) :=
  match r with
  | Error _ _ headers => headers
  | _ => []
  end.

Definition respond_exn (e : exn) : Reply :=
  match e with
  | HTTPException status detail headers => Error status detail headers
  | other => InternalServerError other
  end.

Definition respond (result : Exc ChatCompletionResponse.t) : Reply :=
  match result with
  | inr r => Ok200 r
  | inl e => respond_exn e
  end.

Section Route.

(** [bearer_scheme = HTTPBearer()]: the framework's security scheme, from the
    raw [Authorization] header to credentials or an exception. *)
Variable bearer_scheme :
  option string -> Exc HTTPAuthorizationCredentials.t.

Definition authenticate (g : Globals) (http : Request) : Exc string :=
  (credentials <- bearer_scheme (Authorization http) ;;
   check_api_key g credentials)%exc.

Definition post_chat_completions (g : Globals) (w : World) (http : Request)
    : Reply * list requests.Call :=
  match authenticate g http with
  | inl e => (respond_exn e, [])
  | inr api_key =>
      match ChatCompletionRequest.validate (body http) with
      | None => (Error 422 "Unprocessable Entity" [], [])
      | Some request =>
          let (result, calls) := create_chat_completion g w request in
          (respond result, calls)
      end
  end.

Definition app_post (g : Globals) (w : World) (raw : RawRequest)
    : Reply * list requests.Call :=
  match raw_body raw with
  | NotJSON _ => (Error 422 "Unprocessable Entity" [], [])
  | Unreadable => (Error 400 "There was an error parsing the body" [], [])
  | Decoded document =>
      post_chat_completions g w
        {| Authorization := raw_Authorization raw; body := document |}
  end.

End Route.

(** ** The framework's [HTTPBearer] scheme

    [__call__] of [HTTPBearer] with [auto_error] left at its default: the
    header is split at its first space into scheme and credentials, and the
    credentials are stripped of surrounding white space; a header that is
    absent, has an empty part, or names another scheme than "bearer"
    (compared in lower case) is refused with the scheme's challenge. *)

Fixpoint partition_space (s : string) : string * string :=
  match s with
  | EmptyString => ("", "")
  | String c rest =>
      if Ascii.eqb c " " then ("", rest)
      else let (before, after) := partition_space rest in
           (String c before, after)
  end.

Definition lower_ascii (c : ascii) : ascii :=
  let n := nat_of_ascii c in
  if ((65 <=? n) && (n <=? 90))%nat then ascii_of_nat (n + 32) else c.

Fixpoint lower (s : string) : string :=
  match s with
  | EmptyString => EmptyString
  | String c rest => String (lower_ascii c) (lower rest)
  end.

(** [str.strip()]: the white space of Python among the characters a header
    can hold. *)
Definition is_space (c : ascii) : bool :=
  let n := nat_of_ascii c in
  (((9 <=? n) && (n <=? 13)) || ((28 <=? n) && (n <=? 32))
   || (n =? 133) || (n =? 160))%nat.

Fixpoint lstrip (s : string) : string :=
  match s with
  | EmptyString => EmptyString
  | String c rest => if is_space c then lstrip rest else s
  end.

Fixpoint rstrip (s : string) : string :=
  match s with
  | EmptyString => EmptyString
  | String c rest =>
      let rest' := rstrip rest in
      if is_space c && String.eqb rest' "" then EmptyString
      else String c rest'
  end.

Definition strip (s : string) : string := rstrip (lstrip s).

Definition not_authenticated : exn :=
  HTTPException HTTP_401_UNAUTHORIZED "Not authenticated"
    [("WWW-Authenticate", "Bearer")].

Definition HTTPBearer (authorization : option string)
    : Exc HTTPAuthorizationCredentials.t :=
  match authorization with
  | None => raise not_authenticated
  | Some header =>
      let (scheme, param) := partition_space header in
      let credentials := strip param in
      if String.eqb scheme "" || String.eqb credentials ""
      then raise not_authenticated
      else if negb (String.eqb (lower scheme) "bearer")
      then raise not_authenticated
      else ret {| HTTPAuthorizationCredentials.scheme := scheme;
                  HTTPAuthorizationCredentials.credentials := credentials |}
  end.

(** ** The response schema, checked on the serialised response

    What [response_model=ChatCompletionResponse] promises of a 200 body:
    every declared key present with a value of its declared type. *)




(** ** Vocabulary of the statements *)

(** The header yields credentials with scheme "Bearer" and the configured
    key. *)
Definition authorized
    (bearer_scheme : option string -> Exc HTTPAuthorizationCredentials.t)
    (g : Globals) (http : Request) : Prop :=
  exists c,
    bearer_scheme (Authorization http) = inr c
    /\ HTTPAuthorizationCredentials.scheme c = "Bearer"
    /\ SERVER_API_KEY g = Some (HTTPAuthorizationCredentials.credentials c).

(** A message of the body names a role outside the three permitted ones. *)
Definition role_permitted (v : json) : bool :=
  match v with
  | JStr r => existsb (String.eqb r) ChatMessage.roles
  | _ => false
  end.

Definition has_bad_role (body : json) : Prop :=
  exists d ms m r,
    body = JObj d
    /\ dict_get d "messages" = Some (JArr ms)
    /\ In (JObj m) ms
    /\ dict_get m "role" = Some r
    /\ role_permitted r = false.

(** The ways the outbound call fails, each with the text of its cause. *)
Definition is_error_status (status : Z) : Prop := 400 <= status < 600.

Inductive backend_failure : requests.Outcome -> string -> Prop :=
| network_failure text :
    backend_failure (requests.Raised ConnectionError text) text
| timed_out text :
    backend_failure (requests.Raised Timeout text) text
| error_status r :
    is_error_status (requests.status_code r) ->
    backend_failure (requests.Answered r) (requests.http_error_msg r)
| body_not_json r text :
    ~ is_error_status (requests.status_code r) ->
    requests.body r = inl text ->
    backend_failure (requests.Answered r) text.

(** A string field of a dict: absent, or present with a string. *)
Inductive str_field (d : list (string * json)) (key : string)
    : option string -> Prop :=
| field_absent : dict_get d key = None -> str_field d key None
| field_present s : dict_get d key = Some (JStr s) -> str_field d key (Some s).

(** [message.content] of the backend's answer: absent with the message,
    absent within the message, or a string. *)
Inductive message_content (d : list (string * json)) : option string -> Prop :=
| message_absent :
    dict_get d "message" = None -> message_content d None
| message_present m oc :
    dict_get d "message" = Some (JObj m) ->
    str_field m "content" oc ->
    message_content d oc.

(** ** A running example: one process, three moments, a few backends *)

Definition example_globals : Globals :=
  import_module (Some "secret") "3f2b8c1e" 1700000000.

Definition example_body : json :=
  JObj [("model", JStr "llama3");
        ("messages",
         JArr [JObj [("role", JStr "user"); ("content", JStr "hi")]])].

Definition example_request : Request :=
  {| Authorization := Some "Bearer secret"; body := example_body |}.

Definition answers (status : Z) (b : string + json) : requests.Outcome :=
  requests.Answered
    {| requests.status_code := status; requests.reason := "";
       requests.response_url := OLLAMA_CHAT_ENDPOINT; requests.body := b |}.

Definition world_at (now : Z) (uuid : string) (o : requests.Outcome) : World :=
  {| uuid4 := uuid; time := now; network := fun _ => o |}.

Definition hello : requests.Outcome :=
  answers 200
    (inr (JObj [("model", JStr "llama3");
                ("message", JObj [("content", JStr "hello!")])])).

(** A body with a message of role "tool". *)
Definition tool_body : json :=
  JObj [("model", JStr "llama3");
        ("messages",
         JArr [JObj [("role", JStr "user"); ("content", JStr "hi")];
               JObj [("role", JStr "tool"); ("content", JStr "42")]])].

Definition empty_messages_body : json :=
  JObj [("model", JStr "llama3"); ("messages", JArr [])].

Definition with_body (b : json) : Request :=
  {| Authorization := Some "Bearer secret"; body := b |}.

Definition with_token (token : string) (b : json) : Request :=
  {| Authorization := Some ("Bearer " ++ token); body := b |}.

Definition example_validated : ChatCompletionRequest.t :=
  {| ChatCompletionRequest.model := "llama3";
     ChatCompletionRequest.messages :=
       [{| ChatMessage.role := "user"; ChatMessage.content := "hi" |}] |}.

(** ** Further vocabulary: shapes of bodies and of backend answers *)

(** A field the request shape requires is not there: the body has no
    [model] or no [messages], or one of its messages has no [role] or no
    [content]. *)
Inductive lacks_required_field : json -> Prop :=
| lacks_model d :
    dict_get d "model" = None -> lacks_required_field (JObj d)
| lacks_messages d :
    dict_get d "messages" = None -> lacks_required_field (JObj d)
| message_lacks_role d ms m :
    dict_get d "messages" = Some (JArr ms) ->
    In (JObj m) ms ->
    dict_get m "role" = None ->
    lacks_required_field (JObj d)
| message_lacks_content d ms m :
    dict_get d "messages" = Some (JArr ms) ->
    In (JObj m) ms ->
    dict_get m "content" = None ->
    lacks_required_field (JObj d).

Definition is_dict (v : json) : bool :=
  match v with
  | JObj _ => true
  | _ => false
  end.

(** A decoded backend answer on which a [.get] of the handler is called on
    something that is not a dict: the answer itself, or its [message]. *)
Inductive get_on_non_dict : json -> Prop :=
| answer_not_dict v : is_dict v = false -> get_on_non_dict v
| message_not_dict d mv :
    dict_get d "message" = Some mv ->
    is_dict mv = false ->
    get_on_non_dict (JObj d).

(** A backend answer, an object, in which [message.content] or [model] is
    present and null. *)
Inductive null_field (d : list (string * json)) : Prop :=
| null_content m :
    dict_get d "message" = Some (JObj m) ->
    dict_get m "content" = Some JNull ->
    null_field d
| null_model oc :
    message_content d oc ->
    dict_get d "model" = Some JNull ->
    null_field d.

Definition with_header (header : string) (b : json) : Request :=
  {| Authorization := Some header; body := b |}.

Definition no_model_body : json :=
  JObj [("messages",
         JArr [JObj [("role", JStr "user"); ("content", JStr "hi")]])].

Definition streaming_body : json :=
  JObj [("stream", JBool true);
        ("model", JStr "llama3");
        ("messages",
         JArr [JObj [("role", JStr "user"); ("content", JStr "hi")]])].

Definition example_world : World := world_at 1700000100 "aaaa" hello.

Definition later_world : World := world_at 1700000200 "bbbb" hello.

Definition timeout_world : World :=
  world_at 1700000100 "aaaa" (requests.Raised Timeout "Read timed out.").

Definition null_message_answer : requests.Response :=
  {| requests.status_code := 200; requests.reason := "";
     requests.response_url := OLLAMA_CHAT_ENDPOINT;
     requests.body := inr (JObj [("message", JNull)]) |}.

Definition null_content_answer : requests.Response :=
  {| requests.status_code := 200; requests.reason := "";
     requests.response_url := OLLAMA_CHAT_ENDPOINT;
     requests.body :=
       inr (JObj [("model", JStr "llama3");
                  ("message", JObj [("content", JNull)])]) |}.

Definition answering (r : requests.Response) : World :=
  world_at 1700000100 "aaaa" (requests.Answered r).

(** * Properties *)

(** ** Steps of the exception monad and of the handler *)

(** Split on the scrutinee of an innermost [match] of the goal. *)
Ltac case_inner :=
  repeat match goal with
         | |- context [match ?x with _ => _ end] =>
             lazymatch x with
             | context [match _ with _ => _ end] => fail
             | _ => destruct x eqn:?
             end
         end.

(** A library call cannot end in an exception it never raises. *)
Ltac wrong_exception :=
  match goal with
  | E : _ = inl _ |- _ =>
      solve [revert E;
             unfold requests_post, requests.raise_for_status, requests.json,
               py_get, ResponseChatMessage.new, ChatCompletionResponse.new,
               raise, ret;
             case_inner; discriminate]
  end.

(** Run the first action of a sequence, splitting on how it ends. *)
Ltac run_bind :=
  match goal with
  | |- context [bind ?m _] =>
      let E := fresh "E" in
      destruct m as [[]|] eqn:E; cbn [bind]
  end.

Ltac exc_step := cbn [bind ret raise fst snd].

Lemma create_chat_completion_calls g w request :
  snd (create_chat_completion g w request) = [ollama_call request].
Proof. reflexivity. Qed.

Lemma str_ne_optional_false s k :
  str_ne_optional s k = false <-> k = Some s.
Proof.
  destruct k as [k'|]; simpl; split; try discriminate.
  - intros H. apply negb_false_iff, String.eqb_eq in H. now subst.
  - intros [= ->]. now rewrite String.eqb_refl.
Qed.

Lemma check_api_key_accepts g c :
  HTTPAuthorizationCredentials.scheme c = "Bearer" ->
  SERVER_API_KEY g = Some (HTTPAuthorizationCredentials.credentials c) ->
  check_api_key g c = ret (HTTPAuthorizationCredentials.credentials c).
Proof.
  intros Hs Hk. unfold check_api_key.
  rewrite Hs. apply str_ne_optional_false in Hk. now rewrite Hk.
Qed.

Lemma check_api_key_rejects g c :
  SERVER_API_KEY g <> Some (HTTPAuthorizationCredentials.credentials c) ->
  check_api_key g c =
  raise (HTTPException 401 "Invalid or missing API key"
           [("WWW-Authenticate", "Bearer")]).
Proof.
  intros Hk. unfold check_api_key.
  destruct (str_ne_optional _ _) eqn:E.
  - now rewrite orb_true_r.
  - apply str_ne_optional_false in E. contradiction.
Qed.

Lemma raise_for_status_passes r :
  ~ is_error_status (requests.status_code r) ->
  requests.raise_for_status r = ret tt.
Proof.
  unfold is_error_status, requests.raise_for_status, requests.http_error_msg.
  intros H.
  destruct ((400 <=? _) && (_ <? 500)) eqn:E1.
  - apply andb_true_iff in E1 as [E1 E2]. lia.
  - destruct ((500 <=? _) && (_ <? 600)) eqn:E2; [|reflexivity].
    apply andb_true_iff in E2 as [E2 E3]. lia.
Qed.

Lemma append_nonempty s c t u :
  String.eqb (s ++ String c t ++ u) "" = false.
Proof. now destruct s. Qed.

Lemma raise_for_status_raises r :
  is_error_status (requests.status_code r) ->
  requests.raise_for_status r =
  raise (RequestException HTTPError (requests.http_error_msg r)).
Proof.
  unfold is_error_status, requests.raise_for_status, requests.http_error_msg.
  intros H.
  destruct ((400 <=? _) && (_ <? 500)) eqn:E1;
    [now rewrite append_nonempty|].
  destruct ((500 <=? _) && (_ <? 600)) eqn:E2;
    [now rewrite append_nonempty|].
  apply andb_false_iff in E1, E2. lia.
Qed.

(** Whatever the handler returns carries the id and the timestamp stored in
    the class when the module was imported; the world of the request has no
    part in them. *)
Lemma handler_response_defaults g w request r :
  fst (create_chat_completion g w request) = inr r ->
  ChatCompletionResponse.id r = ChatCompletionResponse_id g
  /\ ChatCompletionResponse.created r = ChatCompletionResponse_created g.
Proof.
  unfold create_chat_completion, try_except_RequestException. cbn [fst].
  repeat run_bind; try discriminate.
  unfold ChatCompletionResponse.new.
  destruct j2; cbn; try discriminate.
  intros [= <-]. split; reflexivity.
Qed.

(** The handler ends in a response, in its own 503, or in an exception that
    is not one of requests'. *)
Lemma handler_outcomes g w request :
  match fst (create_chat_completion g w request) with
  | inr _ => True
  | inl (HTTPException status _ headers) => status = 503 /\ headers = []
  | inl (RequestException _ _) => False
  | inl (AttributeError _) | inl (ValidationError _) => True
  end.
Proof.
  unfold create_chat_completion, try_except_RequestException. cbn [fst].
  repeat run_bind; try wrong_exception; cbn [raise]; auto.
  destruct (ChatCompletionResponse.new _ _ _) as [[]|] eqn:E6;
    try wrong_exception; auto.
Qed.

Section RouteProperties.

Variable bearer_scheme :
  option string -> Exc HTTPAuthorizationCredentials.t.

Let post := post_chat_completions bearer_scheme.

Lemma authorized_authenticate g http :
  authorized bearer_scheme g http ->
  exists api_key, authenticate bearer_scheme g http = inr api_key.
Proof.
  intros (c & Hc & Hs & Hk). unfold authenticate. rewrite Hc. simpl.
  rewrite (check_api_key_accepts _ _ Hs Hk). eauto.
Qed.

Lemma post_rejected g w http e :
  authenticate bearer_scheme g http = inl e ->
  post g w http = (respond_exn e, []).
Proof. unfold post, post_chat_completions. now intros ->. Qed.

Lemma post_invalid g w http :
  authorized bearer_scheme g http ->
  ChatCompletionRequest.validate (body http) = None ->
  post g w http = (Error 422 "Unprocessable Entity" [], []).
Proof.
  intros Ha Hv. destruct (authorized_authenticate _ _ Ha) as [k Hk].
  unfold post, post_chat_completions. now rewrite Hk, Hv.
Qed.

Lemma post_handled g w http request :
  authorized bearer_scheme g http ->
  ChatCompletionRequest.validate (body http) = Some request ->
  post g w http =
  (respond (fst (create_chat_completion g w request)), [ollama_call request]).
Proof.
  intros Ha Hv. destruct (authorized_authenticate _ _ Ha) as [k Hk].
  unfold post, post_chat_completions. now rewrite Hk, Hv.
Qed.

(** Every 200 of the route comes out of the handler. *)
Lemma post_ok_inv g w http r :
  fst (post g w http) = Ok200 r ->
  exists request,
    ChatCompletionRequest.validate (body http) = Some request
    /\ fst (create_chat_completion g w request) = inr r.
Proof.
  unfold post, post_chat_completions.
  destruct (authenticate _ _ _) as [e|k].
  - destruct e; discriminate.
  - destruct (ChatCompletionRequest.validate _) as [request|]; [|discriminate].
    destruct (create_chat_completion g w request) as [[e|r'] calls] eqn:E;
      cbn [fst respond]; [destruct e; discriminate|].
    intros [= ->]. exists request. now rewrite E.
Qed.

Lemma responses_carry_import_time_defaults g w http r :
  fst (post g w http) = Ok200 r ->
  ChatCompletionResponse.id r = ChatCompletionResponse_id g
  /\ ChatCompletionResponse.created r = ChatCompletionResponse_created g.
Proof.
  intros H. apply post_ok_inv in H as (request & _ & H).
  eapply handler_response_defaults; eauto.
Qed.

End RouteProperties.

(** * The claims *)

(** C1 (the code departs from it).  The claim: any two successful responses
    carry different ids, and each [created] is the time at which its response
    was built.  The code: one process, started at time 1700000000, answers
    the same request at 1700000100 and again at 1700000200, while
    [uuid.uuid4()] would by then yield other values; both responses carry the
    one id formed at import and the import's timestamp. *)
Theorem C1_id_and_created_frozen_at_import :
  exists r1 r2,
    fst (post_chat_completions HTTPBearer example_globals
           (world_at 1700000100 "aaaa" hello) example_request) = Ok200 r1
    /\ fst (post_chat_completions HTTPBearer example_globals
              (world_at 1700000200 "bbbb" hello) example_request) = Ok200 r2
    /\ ChatCompletionResponse.id r1 = ChatCompletionResponse.id r2
    /\ ChatCompletionResponse.id r1 = "chatcmpl-3f2b8c1e"
    /\ ChatCompletionResponse.created r1 = 1700000000
    /\ ChatCompletionResponse.created r2 = 1700000000
    /\ ChatCompletionResponse.created r1 <> time (world_at 1700000100 "aaaa" hello)
    /\ ChatCompletionResponse.created r2 <> time (world_at 1700000200 "bbbb" hello).
Proof.
  do 2 eexists. repeat split; try reflexivity; discriminate.
Qed.

Section Claims.

Variable bearer_scheme :
  option string -> Exc HTTPAuthorizationCredentials.t.

(** When the security scheme itself turns a header down (no header, no
    token, another scheme), it does so with status 401 and the Bearer
    challenge. *)
Hypothesis bearer_scheme_challenge :
  forall header e,
    bearer_scheme header = inl e ->
    exists detail,
      e = HTTPException 401 detail [("WWW-Authenticate", "Bearer")].

Let post := post_chat_completions bearer_scheme.

(** Without credentials that carry the configured key, authentication ends
    in a 401 with the challenge: raised by the scheme, or by
    [check_api_key]. *)
Lemma authenticate_rejects g http :
  (forall c, bearer_scheme (Authorization http) = inr c ->
             SERVER_API_KEY g <> Some (HTTPAuthorizationCredentials.credentials c)) ->
  exists detail,
    authenticate bearer_scheme g http =
    inl (HTTPException 401 detail [("WWW-Authenticate", "Bearer")]).
Proof.
  intros Hbad. unfold authenticate.
  destruct (bearer_scheme (Authorization http)) as [e|c] eqn:E.
  - destruct (bearer_scheme_challenge _ _ E) as [detail ->]. now exists detail.
  - cbn [bind]. rewrite (check_api_key_rejects g c (Hbad c eq_refl)). eauto.
Qed.

(** With such a header a request whose body has been decoded is answered
    401 with the challenge, whatever the body holds, and causes no call. *)
Lemma post_bad_token g w http :
  (forall c, bearer_scheme (Authorization http) = inr c ->
             SERVER_API_KEY g <> Some (HTTPAuthorizationCredentials.credentials c)) ->
  status_of (fst (post g w http)) = 401
  /\ headers_of (fst (post g w http)) = [("WWW-Authenticate", "Bearer")]
  /\ snd (post g w http) = [].
Proof.
  intros Hbad. destruct (authenticate_rejects g http Hbad) as [detail Hauth].
  unfold post. rewrite (post_rejected _ _ _ _ _ Hauth). repeat split.
Qed.

(** C2 (amended).  A request whose header does not yield the configured
    key, because the scheme finds no bearer token in it or because the token
    it finds is not the key, never causes an outbound call; when its body
    decodes as JSON it is answered 401 with the [WWW-Authenticate: Bearer]
    challenge, whether or not the decoded body fits the request shape. *)
Theorem C2_bad_or_missing_token_401 g w raw :
  (forall c, bearer_scheme (raw_Authorization raw) = inr c ->
             SERVER_API_KEY g <> Some (HTTPAuthorizationCredentials.credentials c)) ->
  snd (app_post bearer_scheme g w raw) = []
  /\ forall document,
       raw_body raw = Decoded document ->
       status_of (fst (app_post bearer_scheme g w raw)) = 401
       /\ headers_of (fst (app_post bearer_scheme g w raw))
          = [("WWW-Authenticate", "Bearer")].
Proof.
  intros Hbad. unfold app_post.
  destruct (raw_body raw) as [document|text|]; (split; [|intros j [= <-]]);
    try reflexivity; try discriminate.
  - now apply (post_bad_token g w
                 {| Authorization := raw_Authorization raw; body := document |}).
  - destruct (post_bad_token g w
                {| Authorization := raw_Authorization raw; body := document |}
                Hbad) as (Hs & Hh & _).
    now split.
Qed.

(** C3.  An authorized, valid request to which the backend answers with a
    success status and a JSON object holding a string [model] and a
    [message] with string [content] gets a 200 whose object is
    "chat.completion" and whose choices are exactly one: index 0, role
    "assistant", the backend's content, finish_reason "stop". *)
Theorem C3_well_formed_answer_translated g w http request r d m content model :
  authorized bearer_scheme g http ->
  ChatCompletionRequest.validate (body http) = Some request ->
  network w (ollama_call request) = requests.Answered r ->
  200 <= requests.status_code r < 300 ->
  requests.body r = inr (JObj d) ->
  dict_get d "model" = Some (JStr model) ->
  dict_get d "message" = Some (JObj m) ->
  dict_get m "content" = Some (JStr content) ->
  exists response,
    fst (post g w http) = Ok200 response
    /\ ChatCompletionResponse.object response = "chat.completion"
    /\ ChatCompletionResponse.choices response =
       [{| ChatCompletionChoice.index := 0;
           ChatCompletionChoice.message :=
             {| ResponseChatMessage.role := "assistant";
                ResponseChatMessage.content := content |};
           ChatCompletionChoice.finish_reason := "stop" |}].
Proof.
  intros Ha Hv Hnet Hstatus Hbody Hmodel Hmessage Hcontent.
  unfold post. rewrite (post_handled _ g w http request Ha Hv). cbn [fst].
  unfold create_chat_completion, requests_post. rewrite Hnet. exc_step.
  rewrite raise_for_status_passes by (unfold is_error_status; lia). exc_step.
  unfold requests.json. rewrite Hbody. exc_step.
  unfold py_get. rewrite Hmessage. exc_step. rewrite Hcontent, Hmodel.
  cbn. eexists. repeat split.
Qed.

(** C4 (amended).  For an authorized, valid request: when the outbound call
    fails in the network, times out, is answered with an error status (4xx
    or 5xx), or is answered with a body that is not JSON, the endpoint
    answers 503 and its detail is "Error connecting to Ollama: " followed by
    the text of the cause. *)
Theorem C4_backend_failure_503 g w http request cause :
  authorized bearer_scheme g http ->
  ChatCompletionRequest.validate (body http) = Some request ->
  backend_failure (network w (ollama_call request)) cause ->
  fst (post g w http) = Error 503 ("Error connecting to Ollama: " ++ cause) [].
Proof.
  intros Ha Hv Hfail.
  unfold post. rewrite (post_handled _ g w http request Ha Hv). cbn [fst].
  unfold create_chat_completion, requests_post.
  remember (network w (ollama_call request)) as outcome eqn:Hnet.
  destruct Hfail as [text|text|r Hstatus|r text Hstatus Hbody]; exc_step.
  - reflexivity.
  - reflexivity.
  - rewrite (raise_for_status_raises r Hstatus). reflexivity.
  - rewrite (raise_for_status_passes r Hstatus). exc_step.
    unfold requests.json. rewrite Hbody. reflexivity.
Qed.

(** A message with a role outside the three permitted ones fails the body's
    validation. *)
Lemma bad_role_message_invalid m r :
  dict_get m "role" = Some r ->
  role_permitted r = false ->
  ChatMessage.validate (JObj m) = None.
Proof.
  intros Hr Hbad. unfold ChatMessage.validate. rewrite Hr.
  destruct r; try reflexivity.
  destruct (dict_get m "content") as [[]|]; try reflexivity.
  unfold role_permitted in Hbad. now rewrite Hbad.
Qed.

Lemma bad_message_list_invalid v vs :
  In v vs ->
  ChatMessage.validate v = None ->
  ChatMessage.validate_list vs = None.
Proof.
  induction vs as [|v' vs IH]; intros Hin Hv; [contradiction|].
  cbn [ChatMessage.validate_list]. destruct Hin as [->|Hin].
  - now rewrite Hv.
  - rewrite (IH Hin Hv). now destruct (ChatMessage.validate v').
Qed.

Lemma bad_role_invalid body :
  has_bad_role body -> ChatCompletionRequest.validate body = None.
Proof.
  intros (d & ms & m & r & -> & Hms & Hin & Hr & Hbad).
  unfold ChatCompletionRequest.validate. rewrite Hms.
  rewrite (bad_message_list_invalid _ _ Hin (bad_role_message_invalid _ _ Hr Hbad)).
  now destruct (dict_get d "model") as [[]|].
Qed.

(** A body that fails validation never reaches the handler. *)
Lemma invalid_body_no_call g w http :
  ChatCompletionRequest.validate (body http) = None ->
  snd (post g w http) = [].
Proof.
  intros Hv. unfold post, post_chat_completions. rewrite Hv.
  now destruct (authenticate _ _ _).
Qed.

(** C5 (amended).  A request with a message whose role is outside "user",
    "assistant", "system", or whose body otherwise fails the
    ChatCompletionRequest shape, never reaches the backend; when it is
    authorized it is answered 422. *)
Theorem C5_invalid_body_422_when_authorized g w http :
  has_bad_role (body http)
  \/ ChatCompletionRequest.validate (body http) = None ->
  snd (post g w http) = []
  /\ (authorized bearer_scheme g http -> status_of (fst (post g w http)) = 422).
Proof.
  intros H.
  assert (ChatCompletionRequest.validate (body http) = None) as Hv
    by (destruct H; auto using bad_role_invalid).
  split; [now apply invalid_body_no_call|].
  intros Ha. unfold post. now rewrite (post_invalid _ g w http Ha Hv).
Qed.

Lemma nth_error_dicts msgs i msg :
  nth_error msgs i = Some msg ->
  nth_error (map ChatMessage.dict msgs) i =
  Some (JObj [("role", JStr (ChatMessage.role msg));
              ("content", JStr (ChatMessage.content msg))]).
Proof. intros H. now rewrite nth_error_map, H. Qed.

(** C6.  For an authorized, valid request exactly one outbound call is
    issued, to the backend's chat endpoint; its payload has the request's
    model, "stream" false, and a message array of the request's length whose
    i-th entry holds the role and content of the request's i-th message. *)
Theorem C6_payload_copies_request g w http request :
  authorized bearer_scheme g http ->
  ChatCompletionRequest.validate (body http) = Some request ->
  exists call payload msgs,
    snd (post g w http) = [call]
    /\ requests.url call = OLLAMA_CHAT_ENDPOINT
    /\ requests.json_arg call = JObj payload
    /\ dict_get payload "model" =
       Some (JStr (ChatCompletionRequest.model request))
    /\ dict_get payload "stream" = Some (JBool false)
    /\ dict_get payload "messages" = Some (JArr msgs)
    /\ length msgs = length (ChatCompletionRequest.messages request)
    /\ forall i msg,
         nth_error (ChatCompletionRequest.messages request) i = Some msg ->
         nth_error msgs i =
         Some (JObj [("role", JStr (ChatMessage.role msg));
                     ("content", JStr (ChatMessage.content msg))]).
Proof.
  intros Ha Hv. unfold post. rewrite (post_handled _ g w http request Ha Hv).
  do 3 eexists. cbn [snd]. split; [reflexivity|].
  repeat split.
  - apply length_map.
  - apply nth_error_dicts.
Qed.

(** C7.  For an authorized, valid request answered without error status by a
    JSON object: the content of the returned choice is the backend's
    [message.content], or the empty string where the message or its content
    is absent; the returned model is the backend's [model], or the requested
    model where the backend gives none. *)
Theorem C7_content_and_model_defaults g w http request r d content model :
  authorized bearer_scheme g http ->
  ChatCompletionRequest.validate (body http) = Some request ->
  network w (ollama_call request) = requests.Answered r ->
  ~ is_error_status (requests.status_code r) ->
  requests.body r = inr (JObj d) ->
  message_content d content ->
  str_field d "model" model ->
  exists response,
    fst (post g w http) = Ok200 response
    /\ map (fun c => ResponseChatMessage.content (ChatCompletionChoice.message c))
           (ChatCompletionResponse.choices response) =
       [match content with Some c => c | None => "" end]
    /\ ChatCompletionResponse.model response =
       match model with
       | Some m => m
       | None => ChatCompletionRequest.model request
       end.
Proof.
  intros Ha Hv Hnet Hstatus Hbody Hcontent Hmodel.
  unfold post. rewrite (post_handled _ g w http request Ha Hv). cbn [fst].
  unfold create_chat_completion, requests_post. rewrite Hnet. exc_step.
  rewrite (raise_for_status_passes r Hstatus). exc_step.
  unfold requests.json. rewrite Hbody. exc_step. unfold py_get.
  destruct Hcontent as [Hnone|m oc Hm [Hc|c Hc]];
    destruct Hmodel as [Hmod|s Hmod];
    rewrite ?Hnone, ?Hm; exc_step; cbn [dict_get]; rewrite ?Hc, Hmod;
    cbn; eexists; repeat split.
Qed.



(** C9.  With the key's environment variable unset when the module is
    imported, [check_api_key] refuses every credential with the 401, and
    every request, whatever its header and body, is answered 401 without an
    outbound call. *)
Theorem C9_unset_key_rejects_all uuid now w http :
  SERVER_API_KEY (import_module None uuid now) = None
  /\ (forall c,
         check_api_key (import_module None uuid now) c =
         raise (HTTPException 401 "Invalid or missing API key"
                  [("WWW-Authenticate", "Bearer")]))
  /\ status_of (fst (post (import_module None uuid now) w http)) = 401
  /\ snd (post (import_module None uuid now) w http) = [].
Proof.
  split; [reflexivity|]. split.
  - intros c. now apply check_api_key_rejects.
  - destruct (authenticate_rejects (import_module None uuid now) http)
      as [detail Hauth]; [discriminate|].
    unfold post. rewrite (post_rejected _ _ _ _ _ Hauth). split; reflexivity.
Qed.

(** The handler on a well-formed answer: the response it returns. *)
Lemma handler_translates g w request r d m content model :
  network w (ollama_call request) = requests.Answered r ->
  200 <= requests.status_code r < 300 ->
  requests.body r = inr (JObj d) ->
  dict_get d "model" = Some (JStr model) ->
  dict_get d "message" = Some (JObj m) ->
  dict_get m "content" = Some (JStr content) ->
  fst (create_chat_completion g w request) =
  inr {| ChatCompletionResponse.id := ChatCompletionResponse_id g;
         ChatCompletionResponse.object := "chat.completion";
         ChatCompletionResponse.created := ChatCompletionResponse_created g;
         ChatCompletionResponse.model := model;
         ChatCompletionResponse.choices :=
           [{| ChatCompletionChoice.index := 0;
               ChatCompletionChoice.message :=
                 {| ResponseChatMessage.role := "assistant";
                    ResponseChatMessage.content := content |};
               ChatCompletionChoice.finish_reason := "stop" |}] |}.
Proof.
  intros Hnet Hstatus Hbody Hmodel Hmessage Hcontent.
  unfold create_chat_completion, requests_post. rewrite Hnet. exc_step.
  rewrite raise_for_status_passes by (unfold is_error_status; lia). exc_step.
  unfold requests.json. rewrite Hbody. exc_step.
  unfold py_get. rewrite Hmessage. exc_step. rewrite Hcontent, Hmodel.
  reflexivity.
Qed.

(** C10.  A body whose [messages] is the empty array validates, to a request
    with no messages; when authorized it is not answered 422 but forwarded:
    one outbound call, to the backend's chat endpoint with the timeout of
    300 seconds, whose payload is the body's model, an empty [messages]
    array and "stream" false.  The reply is made of what the backend does
    with that call: a 503 with the cause when the call raises, a 200 with
    the backend's content when it is answered well. *)
Theorem C10_empty_messages_forwarded g w http d model :
  authorized bearer_scheme g http ->
  body http = JObj d ->
  dict_get d "model" = Some (JStr model) ->
  dict_get d "messages" = Some (JArr []) ->
  ChatCompletionRequest.validate (body http) =
    Some {| ChatCompletionRequest.model := model;
            ChatCompletionRequest.messages := [] |}
  /\ status_of (fst (post g w http)) <> 422
  /\ exists call payload,
       snd (post g w http) = [call]
       /\ requests.json_arg call = JObj payload
       /\ dict_get payload "messages" = Some (JArr [])
       /\ requests.url call = OLLAMA_CHAT_ENDPOINT
       /\ requests.timeout call = 300
       /\ payload = [("model", JStr model); ("messages", JArr []);
                     ("stream", JBool false)]
       /\ (forall kind text,
              network w call = requests.Raised kind text ->
              fst (post g w http) =
              Error 503 ("Error connecting to Ollama: " ++ text) [])
       /\ (forall r answer m content model',
              network w call = requests.Answered r ->
              200 <= requests.status_code r < 300 ->
              requests.body r = inr (JObj answer) ->
              dict_get answer "model" = Some (JStr model') ->
              dict_get answer "message" = Some (JObj m) ->
              dict_get m "content" = Some (JStr content) ->
              exists response,
                fst (post g w http) = Ok200 response
                /\ ChatCompletionResponse.model response = model'
                /\ map (fun c => ResponseChatMessage.content
                                   (ChatCompletionChoice.message c))
                       (ChatCompletionResponse.choices response) = [content]).
Proof.
  intros Ha Hbody Hmodel Hmessages.
  assert (ChatCompletionRequest.validate (body http) =
          Some {| ChatCompletionRequest.model := model;
                  ChatCompletionRequest.messages := [] |}) as Hv.
  { rewrite Hbody. unfold ChatCompletionRequest.validate.
    now rewrite Hmodel, Hmessages. }
  split; [exact Hv|].
  unfold post. rewrite (post_handled _ g w http _ Ha Hv). cbn [fst snd]. split.
  - pose proof (handler_outcomes g w
                  {| ChatCompletionRequest.model := model;
                     ChatCompletionRequest.messages := [] |}) as Hout.
    destruct (fst (create_chat_completion _ _ _)) as [[s dt h| |t|t]|r];
      cbn; try discriminate; try contradiction.
    destruct Hout as [-> _]. discriminate.
  - do 2 eexists. split; [reflexivity|]. split; [reflexivity|].
    split; [reflexivity|]. split; [reflexivity|]. split; [reflexivity|].
    split; [reflexivity|]. split.
    + intros kind text Hnet.
      unfold create_chat_completion, requests_post. rewrite Hnet. reflexivity.
    + intros r answer m content model' Hnet Hs Hb Hmod Hmsg Hc.
      rewrite (handler_translates g w _ r answer m content model'
                 Hnet Hs Hb Hmod Hmsg Hc).
      eexists. repeat split.
Qed.

End Claims.

(** * The claims on the running example *)

Lemma HTTPBearer_challenge header e :
  HTTPBearer header = inl e ->
  exists detail, e = HTTPException 401 detail [("WWW-Authenticate", "Bearer")].
Proof.
  unfold HTTPBearer, not_authenticated, raise, ret.
  destruct header as [h|]; [destruct (partition_space h)|];
    case_inner; intros [= <-]; eauto.
Qed.

Lemma example_authorized b :
  authorized HTTPBearer example_globals (with_body b).
Proof. eexists. repeat split. Qed.

Lemma C2_witness :
  snd (app_post HTTPBearer example_globals (world_at 1700000100 "aaaa" hello)
         {| raw_Authorization := Some "Bearer guess";
            raw_body := Decoded JNull |}) = []
  /\ forall document,
       raw_body {| raw_Authorization := Some "Bearer guess";
                   raw_body := Decoded JNull |} = Decoded document ->
       status_of (fst (app_post HTTPBearer example_globals
                         (world_at 1700000100 "aaaa" hello)
                         {| raw_Authorization := Some "Bearer guess";
                            raw_body := Decoded JNull |})) = 401
       /\ headers_of (fst (app_post HTTPBearer example_globals
                             (world_at 1700000100 "aaaa" hello)
                             {| raw_Authorization := Some "Bearer guess";
                                raw_body := Decoded JNull |}))
          = [("WWW-Authenticate", "Bearer")].
Proof.
  apply (C2_bad_or_missing_token_401 HTTPBearer HTTPBearer_challenge).
  intros c. vm_compute. intros [= <-]. discriminate.
Defined.

(** C2, as claimed, fails on a request with a wrong token whose body is not
    JSON: the body is decoded before the dependencies are resolved, and the
    reply is 422, not 401. *)
Lemma C2_counterexample :
  HTTPBearer (Some "Bearer guess") =
    inr {| HTTPAuthorizationCredentials.scheme := "Bearer";
           HTTPAuthorizationCredentials.credentials := "guess" |}
  /\ SERVER_API_KEY example_globals <> Some "guess"
  /\ status_of (fst (app_post HTTPBearer example_globals
                       (world_at 1700000100 "aaaa" hello)
                       {| raw_Authorization := Some "Bearer guess";
                          raw_body := NotJSON "Expecting value" |})) = 422
  /\ status_of (fst (app_post HTTPBearer example_globals
                       (world_at 1700000100 "aaaa" hello)
                       {| raw_Authorization := Some "Bearer guess";
                          raw_body := NotJSON "Expecting value" |})) <> 401.
Proof. repeat split; discriminate. Qed.

Lemma C3_witness :
  exists response,
    fst (post_chat_completions HTTPBearer example_globals
           (world_at 1700000100 "aaaa" hello) example_request) = Ok200 response
    /\ ChatCompletionResponse.object response = "chat.completion"
    /\ ChatCompletionResponse.choices response =
       [{| ChatCompletionChoice.index := 0;
           ChatCompletionChoice.message :=
             {| ResponseChatMessage.role := "assistant";
                ResponseChatMessage.content := "hello!" |};
           ChatCompletionChoice.finish_reason := "stop" |}].
Proof.
  eapply (C3_well_formed_answer_translated HTTPBearer example_globals
            (world_at 1700000100 "aaaa" hello) example_request
            example_validated).
  - apply (example_authorized example_body).
  - reflexivity.
  - reflexivity.
  - simpl. lia.
  - reflexivity.
  - reflexivity.
  - reflexivity.
  - reflexivity.
Defined.

Lemma C4_witness :
  fst (post_chat_completions HTTPBearer example_globals
         (world_at 1700000100 "aaaa" (requests.Raised Timeout "Read timed out."))
         example_request)
  = Error 503 "Error connecting to Ollama: Read timed out." [].
Proof.
  apply (C4_backend_failure_503 HTTPBearer example_globals
           (world_at 1700000100 "aaaa" (requests.Raised Timeout "Read timed out."))
           example_request example_validated "Read timed out.").
  - apply (example_authorized example_body).
  - reflexivity.
  - apply timed_out.
Defined.

(** C4, as claimed, fails on a backend body that is JSON but not an object:
    the answer [[]] with status 200 makes [ollama_data.get] raise an
    AttributeError, which the handler does not catch; the reply is the
    server's 500, not 503. *)
Lemma C4_counterexample :
  fst (post_chat_completions HTTPBearer example_globals
         (world_at 1700000100 "aaaa" (answers 200 (inr (JArr []))))
         example_request)
  = InternalServerError (AttributeError "object has no attribute 'get'")
  /\ status_of (fst (post_chat_completions HTTPBearer example_globals
                       (world_at 1700000100 "aaaa" (answers 200 (inr (JArr []))))
                       example_request)) <> 503.
Proof. split; [reflexivity|discriminate]. Qed.

Lemma tool_body_has_bad_role : has_bad_role tool_body.
Proof.
  exists [("model", JStr "llama3");
          ("messages",
           JArr [JObj [("role", JStr "user"); ("content", JStr "hi")];
                 JObj [("role", JStr "tool"); ("content", JStr "42")]])],
         [JObj [("role", JStr "user"); ("content", JStr "hi")];
          JObj [("role", JStr "tool"); ("content", JStr "42")]],
         [("role", JStr "tool"); ("content", JStr "42")],
         (JStr "tool").
  repeat split. right. left. reflexivity.
Qed.

Lemma C5_witness :
  snd (post_chat_completions HTTPBearer example_globals
         (world_at 1700000100 "aaaa" hello) (with_body tool_body)) = []
  /\ (authorized HTTPBearer example_globals (with_body tool_body) ->
      status_of (fst (post_chat_completions HTTPBearer example_globals
                        (world_at 1700000100 "aaaa" hello)
                        (with_body tool_body))) = 422).
Proof.
  apply (C5_invalid_body_422_when_authorized HTTPBearer).
  left. apply tool_body_has_bad_role.
Defined.

(** C5, as claimed, fails on a request that has a message of role "tool" and
    a wrong token: authentication comes first and the reply is 401, not
    422. *)
Lemma C5_counterexample :
  has_bad_role (body (with_token "guess" tool_body))
  /\ status_of (fst (post_chat_completions HTTPBearer example_globals
                       (world_at 1700000100 "aaaa" hello)
                       (with_token "guess" tool_body))) = 401
  /\ status_of (fst (post_chat_completions HTTPBearer example_globals
                       (world_at 1700000100 "aaaa" hello)
                       (with_token "guess" tool_body))) <> 422.
Proof.
  split; [apply tool_body_has_bad_role|]. split; [reflexivity|discriminate].
Qed.

Lemma C6_witness :
  exists call payload msgs,
    snd (post_chat_completions HTTPBearer example_globals
           (world_at 1700000100 "aaaa" hello) example_request) = [call]
    /\ requests.url call = OLLAMA_CHAT_ENDPOINT
    /\ requests.json_arg call = JObj payload
    /\ dict_get payload "model" =
       Some (JStr (ChatCompletionRequest.model example_validated))
    /\ dict_get payload "stream" = Some (JBool false)
    /\ dict_get payload "messages" = Some (JArr msgs)
    /\ length msgs = length (ChatCompletionRequest.messages example_validated)
    /\ forall i msg,
         nth_error (ChatCompletionRequest.messages example_validated) i
         = Some msg ->
         nth_error msgs i =
         Some (JObj [("role", JStr (ChatMessage.role msg));
                     ("content", JStr (ChatMessage.content msg))]).
Proof.
  apply (C6_payload_copies_request HTTPBearer example_globals
           (world_at 1700000100 "aaaa" hello) example_request
           example_validated).
  - apply (example_authorized example_body).
  - reflexivity.
Defined.

(** The backend answers with a message that has no content and names no
    model: the defaults apply. *)
Lemma C7_witness :
  exists response,
    fst (post_chat_completions HTTPBearer example_globals
           (world_at 1700000100 "aaaa"
              (answers 200 (inr (JObj [("message", JObj [])]))))
           example_request) = Ok200 response
    /\ map (fun c => ResponseChatMessage.content (ChatCompletionChoice.message c))
           (ChatCompletionResponse.choices response) = [""]
    /\ ChatCompletionResponse.model response = "llama3".
Proof.
  apply (C7_content_and_model_defaults HTTPBearer example_globals
           (world_at 1700000100 "aaaa"
              (answers 200 (inr (JObj [("message", JObj [])]))))
           example_request example_validated
           {| requests.status_code := 200; requests.reason := "";
              requests.response_url := OLLAMA_CHAT_ENDPOINT;
              requests.body := inr (JObj [("message", JObj [])]) |}
           [("message", JObj [])] None None).
  - apply (example_authorized example_body).
  - reflexivity.
  - reflexivity.
  - unfold is_error_status. simpl. lia.
  - reflexivity.
  - apply (message_present _ []); [reflexivity|]. apply field_absent. reflexivity.
  - apply field_absent. reflexivity.
Defined.



Lemma C9_witness :
  SERVER_API_KEY (import_module None "3f2b8c1e" 1700000000) = None
  /\ (forall c,
         check_api_key (import_module None "3f2b8c1e" 1700000000) c =
         raise (HTTPException 401 "Invalid or missing API key"
                  [("WWW-Authenticate", "Bearer")]))
  /\ status_of (fst (post_chat_completions HTTPBearer
                       (import_module None "3f2b8c1e" 1700000000)
                       (world_at 1700000100 "aaaa" hello)
                       example_request)) = 401
  /\ snd (post_chat_completions HTTPBearer
            (import_module None "3f2b8c1e" 1700000000)
            (world_at 1700000100 "aaaa" hello) example_request) = [].
Proof.
  apply (C9_unset_key_rejects_all HTTPBearer HTTPBearer_challenge).
Defined.

Lemma C10_witness :
  ChatCompletionRequest.validate (body (with_body empty_messages_body)) =
    Some {| ChatCompletionRequest.model := "llama3";
            ChatCompletionRequest.messages := [] |}
  /\ status_of (fst (post_chat_completions HTTPBearer example_globals
                       (world_at 1700000100 "aaaa" hello)
                       (with_body empty_messages_body))) <> 422
  /\ exists call payload,
       snd (post_chat_completions HTTPBearer example_globals
              (world_at 1700000100 "aaaa" hello)
              (with_body empty_messages_body)) = [call]
       /\ requests.json_arg call = JObj payload
       /\ dict_get payload "messages" = Some (JArr [])
       /\ requests.url call = OLLAMA_CHAT_ENDPOINT
       /\ requests.timeout call = 300
       /\ payload = [("model", JStr "llama3"); ("messages", JArr []);
                     ("stream", JBool false)]
       /\ (forall kind text,
              network (world_at 1700000100 "aaaa" hello) call
              = requests.Raised kind text ->
              fst (post_chat_completions HTTPBearer example_globals
                     (world_at 1700000100 "aaaa" hello)
                     (with_body empty_messages_body)) =
              Error 503 ("Error connecting to Ollama: " ++ text) [])
       /\ (forall r answer m content model',
              network (world_at 1700000100 "aaaa" hello) call
              = requests.Answered r ->
              200 <= requests.status_code r < 300 ->
              requests.body r = inr (JObj answer) ->
              dict_get answer "model" = Some (JStr model') ->
              dict_get answer "message" = Some (JObj m) ->
              dict_get m "content" = Some (JStr content) ->
              exists response,
                fst (post_chat_completions HTTPBearer example_globals
                       (world_at 1700000100 "aaaa" hello)
                       (with_body empty_messages_body)) = Ok200 response
                /\ ChatCompletionResponse.model response = model'
                /\ map (fun c => ResponseChatMessage.content
                                   (ChatCompletionChoice.message c))
                       (ChatCompletionResponse.choices response) = [content]).
Proof.
  apply (C10_empty_messages_forwarded HTTPBearer example_globals
           (world_at 1700000100 "aaaa" hello)
           (with_body empty_messages_body)
           [("model", JStr "llama3"); ("messages", JArr [])] "llama3").
  - apply example_authorized.
  - reflexivity.
  - reflexivity.
  - reflexivity.
Defined.

(** * Further properties of the guard, the models and the handler *)

(** X1.  [check_api_key] accepts exactly the credentials whose scheme is
    "Bearer", letter for letter, and whose token is the configured key; it
    then returns that token.  Every refusal is the same exception: 401,
    "Invalid or missing API key", with the Bearer challenge. *)
Theorem X1_check_api_key_exact g c :
  (forall token,
      check_api_key g c = inr token <->
      HTTPAuthorizationCredentials.scheme c = "Bearer"
      /\ HTTPAuthorizationCredentials.credentials c = token
      /\ SERVER_API_KEY g = Some token)
  /\ (forall e,
         check_api_key g c = inl e ->
         e = HTTPException 401 "Invalid or missing API key"
               [("WWW-Authenticate", "Bearer")]).
Proof.
  unfold check_api_key, raise, ret. split.
  - intros token. split.
    + destruct (String.eqb _ "Bearer") eqn:Es; cbn [negb orb];
        [|discriminate].
      destruct (str_ne_optional _ _) eqn:Ek; [discriminate|].
      intros [= <-]. apply String.eqb_eq in Es.
      apply str_ne_optional_false in Ek. auto.
    + intros (Hs & <- & Hk). rewrite Hs.
      apply str_ne_optional_false in Hk. rewrite Hk. reflexivity.
  - intros e. destruct (_ || _); [|discriminate]. now intros [= <-].
Qed.

Section Extras.

Variable bearer_scheme :
  option string -> Exc HTTPAuthorizationCredentials.t.

Let post := post_chat_completions bearer_scheme.

(** X2.  Credentials whose scheme is not exactly "Bearer" (for instance
    "bearer", which the header parser lets through) are refused by
    [check_api_key] even when their token is the configured key: the reply is
    the 401 and no outbound call is issued. *)
Theorem X2_scheme_is_case_sensitive g w http c :
  bearer_scheme (Authorization http) = inr c ->
  HTTPAuthorizationCredentials.scheme c <> "Bearer" ->
  fst (post g w http) =
    Error 401 "Invalid or missing API key" [("WWW-Authenticate", "Bearer")]
  /\ snd (post g w http) = [].
Proof.
  intros Hc Hs.
  assert (authenticate bearer_scheme g http =
          inl (HTTPException 401 "Invalid or missing API key"
                 [("WWW-Authenticate", "Bearer")])) as Hauth.
  { unfold authenticate. rewrite Hc. cbn [bind]. unfold check_api_key.
    apply String.eqb_neq in Hs. now rewrite Hs. }
  unfold post. rewrite (post_rejected _ _ _ _ _ Hauth). split; reflexivity.
Qed.

(** ** What validation guarantees *)

Lemma validate_message_inv v msg :
  ChatMessage.validate v = Some msg ->
  exists m,
    v = JObj m
    /\ dict_get m "role" = Some (JStr (ChatMessage.role msg))
    /\ dict_get m "content" = Some (JStr (ChatMessage.content msg))
    /\ In (ChatMessage.role msg) ["user"; "assistant"; "system"].
Proof.
  unfold ChatMessage.validate. destruct v as [| | | |items|m]; try discriminate.
  destruct (dict_get m "role") as [[| | |r| |]|] eqn:Er; try discriminate.
  destruct (dict_get m "content") as [[| | |c| |]|] eqn:Ec; try discriminate.
  destruct (existsb _ _) eqn:E; [|discriminate].
  intros [= <-]. exists m. cbn [ChatMessage.role ChatMessage.content].
  repeat split; trivial.
  apply existsb_exists in E as (x & Hin & Heq).
  apply String.eqb_eq in Heq. now subst.
Qed.

Lemma validate_list_inv vs : forall ms,
  ChatMessage.validate_list vs = Some ms ->
  length ms = length vs
  /\ forall i v, nth_error vs i = Some v ->
       exists msg, nth_error ms i = Some msg /\ ChatMessage.validate v = Some msg.
Proof.
  induction vs as [|v vs IH]; intros ms; cbn [ChatMessage.validate_list].
  - intros [= <-]. split; [reflexivity|]. intros [|i] v'; discriminate.
  - destruct (ChatMessage.validate v) as [m|] eqn:Ev; [|discriminate].
    destruct (ChatMessage.validate_list vs) as [ms'|]; [|discriminate].
    intros [= <-]. destruct (IH ms' eq_refl) as [Hlen Hnth]. split.
    + cbn. now rewrite Hlen.
    + intros [|i] v' Hv'; cbn in *.
      * injection Hv' as <-. eauto.
      * now apply Hnth.
Qed.

Lemma validate_request_inv body request :
  ChatCompletionRequest.validate body = Some request ->
  exists d vs,
    body = JObj d
    /\ dict_get d "model" = Some (JStr (ChatCompletionRequest.model request))
    /\ dict_get d "messages" = Some (JArr vs)
    /\ ChatMessage.validate_list vs =
       Some (ChatCompletionRequest.messages request).
Proof.
  unfold ChatCompletionRequest.validate.
  destruct body as [| | | |items|d]; try discriminate.
  destruct (dict_get d "model") as [[| | |m| |]|] eqn:Em; try discriminate.
  destruct (dict_get d "messages") as [[| | | |vs|]|] eqn:Ems;
    try discriminate.
  destruct (ChatMessage.validate_list vs) as [ms|] eqn:E; [|discriminate].
  intros [= <-]. exists d, vs. cbn. auto.
Qed.

Lemma validated_roles body request :
  ChatCompletionRequest.validate body = Some request ->
  Forall (fun msg => In (ChatMessage.role msg) ["user"; "assistant"; "system"])
         (ChatCompletionRequest.messages request).
Proof.
  intros Hv. apply validate_request_inv in Hv as (d & vs & _ & _ & _ & Hl).
  apply Forall_forall. intros msg Hin.
  apply In_nth_error in Hin as [i Hi].
  destruct (validate_list_inv vs _ Hl) as [Hlen Hnth].
  assert (i < length vs)%nat as Hlt.
  { rewrite <- Hlen. apply nth_error_Some. now rewrite Hi. }
  destruct (nth_error vs i) as [v|] eqn:Ev;
    [|apply nth_error_None in Ev; lia].
  destruct (Hnth i v Ev) as (msg' & Hmsg' & Hval).
  rewrite Hi in Hmsg'. injection Hmsg' as <-.
  now apply validate_message_inv in Hval as (m & _ & _ & _ & Hrole).
Qed.

(** X3.  Every message of a request that passed validation has one of the
    three roles "user", "assistant", "system". *)
Theorem X3_validated_roles_permitted body request :
  ChatCompletionRequest.validate body = Some request ->
  Forall (fun msg => In (ChatMessage.role msg) ["user"; "assistant"; "system"])
         (ChatCompletionRequest.messages request).
Proof. apply validated_roles. Qed.

(** X4.  From inbound JSON to outbound JSON.  For an authorized request that
    validates, the one outbound payload has the body's [model], and a
    [messages] array as long as the body's whose i-th entry is a dict with
    exactly the keys "role" and "content", holding the values the body's
    i-th message has under them; whatever else a message carried is
    dropped. *)
Theorem X4_body_messages_forwarded_in_order g w http request :
  authorized bearer_scheme g http ->
  ChatCompletionRequest.validate (body http) = Some request ->
  exists d vs call payload msgs,
    body http = JObj d
    /\ dict_get d "messages" = Some (JArr vs)
    /\ snd (post g w http) = [call]
    /\ requests.json_arg call = JObj payload
    /\ dict_get payload "model" = dict_get d "model"
    /\ dict_get payload "messages" = Some (JArr msgs)
    /\ length msgs = length vs
    /\ forall i v,
         nth_error vs i = Some v ->
         exists inbound outbound,
           v = JObj inbound
           /\ nth_error msgs i = Some (JObj outbound)
           /\ map fst outbound = ["role"; "content"]
           /\ dict_get outbound "role" = dict_get inbound "role"
           /\ dict_get outbound "content" = dict_get inbound "content".
Proof.
  intros Ha Hv.
  destruct (validate_request_inv _ _ Hv) as (d & vs & Hbody & Hmodel & Hms & Hl).
  destruct (validate_list_inv vs _ Hl) as [Hlen Hnth].
  exists d, vs. unfold post. rewrite (post_handled _ g w http request Ha Hv).
  do 3 eexists. cbn [snd].
  split; [exact Hbody|]. split; [exact Hms|]. split; [reflexivity|].
  split; [reflexivity|]. split; [now rewrite Hmodel|].
  split; [reflexivity|]. split; [now rewrite length_map|].
  intros i v Hi. destruct (Hnth i v Hi) as (msg & Hmsg & Hval).
  apply validate_message_inv in Hval as (inbound & -> & Hr & Hc & _).
  exists inbound. eexists. split; [reflexivity|].
  split; [apply (nth_error_dicts _ _ _ Hmsg)|].
  cbn. now rewrite Hr, Hc.
Qed.

Lemma dicts_validate ms :
  Forall (fun msg => In (ChatMessage.role msg) ["user"; "assistant"; "system"])
         ms ->
  ChatMessage.validate_list (map ChatMessage.dict ms) = Some ms.
Proof.
  induction 1 as [|[r c] ms Hr _ IH]; [reflexivity|].
  cbn [map ChatMessage.validate_list]. rewrite IH.
  cbn in Hr. destruct Hr as [<-|[<-|[<-|[]]]]; reflexivity.
Qed.

(** X5.  Round trip.  The payload built for a validated request is itself a
    body of the proxy's request shape, and validating it gives the request
    back: translation to the backend's format loses nothing of what
    validation kept. *)
Theorem X5_payload_validates_to_request body request :
  ChatCompletionRequest.validate body = Some request ->
  ChatCompletionRequest.validate (ollama_payload request) = Some request.
Proof.
  intros Hv. pose proof (validated_roles _ _ Hv) as Hroles.
  unfold ollama_payload, ChatCompletionRequest.validate.
  cbn [dict_get String.eqb Ascii.eqb Bool.eqb].
  rewrite (dicts_validate _ Hroles). now destruct request.
Qed.

Lemma message_without_field_invalid m :
  dict_get m "role" = None \/ dict_get m "content" = None ->
  ChatMessage.validate (JObj m) = None.
Proof.
  unfold ChatMessage.validate. intros [->| ->]; [reflexivity|].
  now destruct (dict_get m "role") as [[]|].
Qed.

Lemma lacks_required_field_invalid body :
  lacks_required_field body -> ChatCompletionRequest.validate body = None.
Proof.
  unfold ChatCompletionRequest.validate.
  intros [d Hm|d Hms|d ms m Hms Hin Hr|d ms m Hms Hin Hc].
  - now rewrite Hm.
  - rewrite Hms. now destruct (dict_get d "model") as [[]|].
  - rewrite Hms.
    rewrite (bad_message_list_invalid _ _ Hin
               (message_without_field_invalid m (or_introl Hr))).
    now destruct (dict_get d "model") as [[]|].
  - rewrite Hms.
    rewrite (bad_message_list_invalid _ _ Hin
               (message_without_field_invalid m (or_intror Hc))).
    now destruct (dict_get d "model") as [[]|].
Qed.

(** X6.  A body without [model], without [messages], or with a message that
    has no [role] or no [content] is never forwarded; when the request is
    authorized the reply is 422.  No field is defaulted on the way in. *)
Theorem X6_required_fields g w http :
  lacks_required_field (body http) ->
  snd (post g w http) = []
  /\ (authorized bearer_scheme g http ->
      fst (post g w http) = Error 422 "Unprocessable Entity" []).
Proof.
  intros H. apply lacks_required_field_invalid in H. split.
  - unfold post, post_chat_completions. rewrite H.
    now destruct (authenticate _ _ _).
  - intros Ha. unfold post. now rewrite (post_invalid _ g w http Ha H).
Qed.

(** X7.  One attempt, no retry.  A request causes at most one outbound call,
    and which calls it causes does not depend on how the backend behaves.
    A call is issued only after authentication and validation both passed;
    it goes to the chat endpoint with a timeout of 300 seconds and carries
    the payload of the validated request. *)
Theorem X7_at_most_one_call g w w' http :
  snd (post g w http) = snd (post g w' http)
  /\ (length (snd (post g w http)) <= 1)%nat
  /\ forall call,
       In call (snd (post g w http)) ->
       requests.url call = OLLAMA_CHAT_ENDPOINT
       /\ requests.timeout call = 300
       /\ exists api_key request,
            authenticate bearer_scheme g http = inr api_key
            /\ ChatCompletionRequest.validate (body http) = Some request
            /\ requests.json_arg call = ollama_payload request.
Proof.
  unfold post, post_chat_completions.
  destruct (authenticate bearer_scheme g http) as [e|k];
    [cbn; repeat split; auto; contradiction|].
  destruct (ChatCompletionRequest.validate (body http)) as [request|];
    [|cbn; repeat split; auto; contradiction].
  unfold create_chat_completion. cbn [snd]. repeat split; auto.
  - destruct H as [<-|[]]. reflexivity.
  - destruct H as [<-|[]]. reflexivity.
  - destruct H as [<-|[]]. eauto.
Qed.

Lemma dict_get_other k v d key :
  k <> key -> dict_get ((k, v) :: d) key = dict_get d key.
Proof. intros H. cbn. apply String.eqb_neq in H. now rewrite H. Qed.

(** X12.  A key the request model does not declare changes nothing: a body
    with such a key in front (a client's "stream": true, a "temperature")
    is treated, in reply and in outbound calls, exactly as the body without
    it. *)
Theorem X12_undeclared_key_ignored g w header k v d :
  k <> "model" ->
  k <> "messages" ->
  post g w {| Authorization := header; body := JObj ((k, v) :: d) |}
  = post g w {| Authorization := header; body := JObj d |}.
Proof.
  intros Hm Hms. unfold post, post_chat_completions, authenticate.
  cbn [Authorization body]. unfold ChatCompletionRequest.validate.
  now rewrite !dict_get_other.
Qed.

Lemma error_status_dec status :
  is_error_status status \/ ~ is_error_status status.
Proof. unfold is_error_status. lia. Qed.

(** X8.  The only error an authorized, valid request can be answered with
    is the handler's 503, and that only for a failed outbound call: the
    reply has no headers, its detail is "Error connecting to Ollama: "
    followed by the cause, and the cause is the text of the exception
    [requests.post] raised, the message of an error status, or the
    decoder's message for a body that is not JSON. *)
Theorem X8_error_reply_is_503_of_failed_call
    g w http request status detail headers :
  authorized bearer_scheme g http ->
  ChatCompletionRequest.validate (body http) = Some request ->
  fst (post g w http) = Error status detail headers ->
  status = 503
  /\ headers = []
  /\ exists cause,
       detail = "Error connecting to Ollama: " ++ cause
       /\ ((exists kind,
               network w (ollama_call request) = requests.Raised kind cause)
           \/ (exists r,
                  network w (ollama_call request) = requests.Answered r
                  /\ is_error_status (requests.status_code r)
                  /\ cause = requests.http_error_msg r)
           \/ (exists r,
                  network w (ollama_call request) = requests.Answered r
                  /\ ~ is_error_status (requests.status_code r)
                  /\ requests.body r = inl cause)).
Proof.
  intros Ha Hv.
  unfold post. rewrite (post_handled _ g w http request Ha Hv). cbn [fst].
  unfold create_chat_completion, requests_post. cbn [fst].
  destruct (network w (ollama_call request)) as [kind text|r] eqn:Hnet;
    exc_step.
  - intros [= <- <- <-]. repeat split. exists text. split; [reflexivity|].
    left. now exists kind.
  - destruct (error_status_dec (requests.status_code r)) as [Hs|Hs].
    + rewrite (raise_for_status_raises r Hs). exc_step.
      intros [= <- <- <-]. repeat split. eexists. split; [reflexivity|].
      right; left. now exists r.
    + rewrite (raise_for_status_passes r Hs). exc_step.
      unfold requests.json. destruct (requests.body r) as [text|v] eqn:Hbody;
        exc_step.
      * intros [= <- <- <-]. repeat split. exists text. split; [reflexivity|].
        right; right. now exists r.
      * repeat run_bind; try wrong_exception; cbn; try discriminate.
        destruct (ChatCompletionResponse.new _ _ _) as [[]|] eqn:E6;
          try wrong_exception; cbn; discriminate.
Qed.

(** X9.  When the backend answers, without error status, JSON that is not
    an object, or an object whose [message] is present but not an object
    (null, a string, a list), a [.get] of the handler raises an
    AttributeError that its [except] does not catch: the reply is the
    server's 500, not a 503 and not a defaulted response. *)
Theorem X9_get_on_non_dict_is_uncaught g w http request r v :
  authorized bearer_scheme g http ->
  ChatCompletionRequest.validate (body http) = Some request ->
  network w (ollama_call request) = requests.Answered r ->
  ~ is_error_status (requests.status_code r) ->
  requests.body r = inr v ->
  get_on_non_dict v ->
  fst (post g w http) =
    InternalServerError (AttributeError "object has no attribute 'get'")
  /\ status_of (fst (post g w http)) = 500.
Proof.
  intros Ha Hv Hnet Hs Hbody Hshape.
  enough (fst (post g w http) =
          InternalServerError (AttributeError "object has no attribute 'get'"))
    as -> by (split; reflexivity).
  unfold post. rewrite (post_handled _ g w http request Ha Hv). cbn [fst].
  unfold create_chat_completion, requests_post. rewrite Hnet. exc_step.
  rewrite (raise_for_status_passes r Hs). exc_step.
  unfold requests.json. rewrite Hbody. exc_step.
  destruct Hshape as [v Hv'|d mv Hm Hmv].
  - destruct v; try discriminate; reflexivity.
  - unfold py_get at 1. rewrite Hm. exc_step.
    destruct mv; try discriminate; reflexivity.
Qed.

(** X10.  The defaults of [.get] apply to an absent key only.  When the
    backend's [message.content] or [model] is present and null, the value
    handed to the response models is [None]; their [str] fields refuse it
    with a ValidationError, which the handler does not catch: the reply is
    the server's 500. *)
Theorem X10_null_field_is_not_defaulted g w http request r d :
  authorized bearer_scheme g http ->
  ChatCompletionRequest.validate (body http) = Some request ->
  network w (ollama_call request) = requests.Answered r ->
  ~ is_error_status (requests.status_code r) ->
  requests.body r = inr (JObj d) ->
  null_field d ->
  exists text,
    fst (post g w http) = InternalServerError (ValidationError text)
    /\ status_of (fst (post g w http)) = 500.
Proof.
  intros Ha Hv Hnet Hs Hbody Hnull.
  unfold post. rewrite (post_handled _ g w http request Ha Hv). cbn [fst].
  unfold create_chat_completion, requests_post. rewrite Hnet. exc_step.
  rewrite (raise_for_status_passes r Hs). exc_step.
  unfold requests.json. rewrite Hbody. exc_step. unfold py_get.
  destruct Hnull as [m Hm Hc|oc Hcontent Hmodel].
  - rewrite Hm. exc_step. rewrite Hc. exc_step.
    destruct (dict_get d "model"); cbn; eexists; split; reflexivity.
  - rewrite Hmodel.
    destruct Hcontent as [Hnone|m oc Hm [Hc|c Hc]];
      rewrite ?Hnone, ?Hm; exc_step; cbn [dict_get]; rewrite ?Hc;
      cbn; eexists; split; reflexivity.
Qed.

(** X11.  All responses of one process carry one id and one timestamp:
    whatever the two requests, the times they are served at and the
    backend's answers, two 200 replies have equal [id] and equal [created],
    namely "chatcmpl-" followed by the uuid drawn at import, and the time of
    import. *)
Theorem X11_responses_share_id_and_created
    environ_API uuid now w1 w2 http1 http2 r1 r2 :
  fst (post (import_module environ_API uuid now) w1 http1) = Ok200 r1 ->
  fst (post (import_module environ_API uuid now) w2 http2) = Ok200 r2 ->
  ChatCompletionResponse.id r1 = ChatCompletionResponse.id r2
  /\ ChatCompletionResponse.id r1 = "chatcmpl-" ++ uuid
  /\ ChatCompletionResponse.created r1 = ChatCompletionResponse.created r2
  /\ ChatCompletionResponse.created r1 = now.
Proof.
  intros H1 H2.
  apply responses_carry_import_time_defaults in H1 as [Hid1 Hc1].
  apply responses_carry_import_time_defaults in H2 as [Hid2 Hc2].
  rewrite Hid1, Hid2, Hc1, Hc2. repeat split.
Qed.

(** X13.  A 200 is given only when everything passed: the request was
    authenticated and validated, and the backend answered, without error
    status, a JSON object whose [message] is absent or an object.  A failed
    call or a body that is not JSON never turns into a response. *)
Theorem X13_ok_only_from_answered_object g w http response :
  fst (post g w http) = Ok200 response ->
  exists api_key request r d,
    authenticate bearer_scheme g http = inr api_key
    /\ ChatCompletionRequest.validate (body http) = Some request
    /\ network w (ollama_call request) = requests.Answered r
    /\ ~ is_error_status (requests.status_code r)
    /\ requests.body r = inr (JObj d)
    /\ (dict_get d "message" = None
        \/ exists m, dict_get d "message" = Some (JObj m)).
Proof.
  unfold post, post_chat_completions.
  destruct (authenticate bearer_scheme g http) as [e|k]; cbn [fst].
  { destruct e; discriminate. }
  destruct (ChatCompletionRequest.validate (body http)) as [request|];
    [|discriminate].
  unfold create_chat_completion, requests_post. cbn [fst].
  destruct (network w (ollama_call request)) as [kind text|r] eqn:Hnet;
    exc_step; [discriminate|].
  destruct (error_status_dec (requests.status_code r)) as [Hs|Hs].
  { rewrite (raise_for_status_raises r Hs). exc_step. discriminate. }
  rewrite (raise_for_status_passes r Hs). exc_step.
  unfold requests.json.
  destruct (requests.body r) as [text|v] eqn:Hbody; exc_step; [discriminate|].
  destruct v as [| | | | |d]; try (cbn; discriminate).
  unfold py_get at 1.
  destruct (dict_get d "message") as [mv|] eqn:Hm.
  - exc_step. destruct mv; try (cbn; discriminate).
    intros _. exists k, request, r, d. repeat split; eauto.
  - intros _. exists k, request, r, d. repeat split; auto.
Qed.

End Extras.

(** * The further properties on the running example *)

Lemma example_validates :
  ChatCompletionRequest.validate (body example_request) = Some example_validated.
Proof. reflexivity. Qed.

(** "bearer secret": the right key under a lower-case scheme. *)
Lemma X2_witness :
  fst (post_chat_completions HTTPBearer example_globals example_world
         (with_header "bearer secret" example_body))
  = Error 401 "Invalid or missing API key" [("WWW-Authenticate", "Bearer")]
  /\ snd (post_chat_completions HTTPBearer example_globals example_world
            (with_header "bearer secret" example_body)) = [].
Proof.
  apply (X2_scheme_is_case_sensitive HTTPBearer example_globals example_world
           (with_header "bearer secret" example_body)
           {| HTTPAuthorizationCredentials.scheme := "bearer";
              HTTPAuthorizationCredentials.credentials := "secret" |}).
  - reflexivity.
  - discriminate.
Defined.

Lemma X3_witness :
  Forall (fun msg => In (ChatMessage.role msg) ["user"; "assistant"; "system"])
         (ChatCompletionRequest.messages example_validated).
Proof.
  apply (X3_validated_roles_permitted example_body example_validated).
  reflexivity.
Defined.

Lemma X4_witness :
  exists d vs call payload msgs,
    body example_request = JObj d
    /\ dict_get d "messages" = Some (JArr vs)
    /\ snd (post_chat_completions HTTPBearer example_globals example_world
              example_request) = [call]
    /\ requests.json_arg call = JObj payload
    /\ dict_get payload "model" = dict_get d "model"
    /\ dict_get payload "messages" = Some (JArr msgs)
    /\ length msgs = length vs
    /\ forall i v,
         nth_error vs i = Some v ->
         exists inbound outbound,
           v = JObj inbound
           /\ nth_error msgs i = Some (JObj outbound)
           /\ map fst outbound = ["role"; "content"]
           /\ dict_get outbound "role" = dict_get inbound "role"
           /\ dict_get outbound "content" = dict_get inbound "content".
Proof.
  apply (X4_body_messages_forwarded_in_order HTTPBearer example_globals
           example_world example_request example_validated).
  - apply (example_authorized example_body).
  - reflexivity.
Defined.

Lemma X5_witness :
  ChatCompletionRequest.validate (ollama_payload example_validated)
  = Some example_validated.
Proof.
  apply (X5_payload_validates_to_request example_body example_validated).
  reflexivity.
Defined.

Lemma X6_witness :
  snd (post_chat_completions HTTPBearer example_globals example_world
         (with_body no_model_body)) = []
  /\ (authorized HTTPBearer example_globals (with_body no_model_body) ->
      fst (post_chat_completions HTTPBearer example_globals example_world
             (with_body no_model_body))
      = Error 422 "Unprocessable Entity" []).
Proof.
  apply (X6_required_fields HTTPBearer example_globals example_world
           (with_body no_model_body)).
  apply lacks_model. reflexivity.
Defined.

Lemma X8_witness :
  503 = 503
  /\ @nil (string * string) = []
  /\ exists cause,
       "Error connecting to Ollama: Read timed out."
       = "Error connecting to Ollama: " ++ cause
       /\ ((exists kind,
               network timeout_world (ollama_call example_validated)
               = requests.Raised kind cause)
           \/ (exists r,
                  network timeout_world (ollama_call example_validated)
                  = requests.Answered r
                  /\ is_error_status (requests.status_code r)
                  /\ cause = requests.http_error_msg r)
           \/ (exists r,
                  network timeout_world (ollama_call example_validated)
                  = requests.Answered r
                  /\ ~ is_error_status (requests.status_code r)
                  /\ requests.body r = inl cause)).
Proof.
  apply (X8_error_reply_is_503_of_failed_call HTTPBearer example_globals
           timeout_world example_request example_validated).
  - apply (example_authorized example_body).
  - reflexivity.
  - reflexivity.
Defined.

Lemma X9_witness :
  fst (post_chat_completions HTTPBearer example_globals
         (answering null_message_answer) example_request)
  = InternalServerError (AttributeError "object has no attribute 'get'")
  /\ status_of (fst (post_chat_completions HTTPBearer example_globals
                       (answering null_message_answer) example_request))
     = 500.
Proof.
  apply (X9_get_on_non_dict_is_uncaught HTTPBearer example_globals
           (answering null_message_answer) example_request example_validated
           null_message_answer (JObj [("message", JNull)])).
  - apply (example_authorized example_body).
  - reflexivity.
  - reflexivity.
  - unfold is_error_status. simpl. lia.
  - reflexivity.
  - apply (message_not_dict _ JNull); reflexivity.
Defined.

Lemma X10_witness :
  exists text,
    fst (post_chat_completions HTTPBearer example_globals
           (answering null_content_answer) example_request)
    = InternalServerError (ValidationError text)
    /\ status_of (fst (post_chat_completions HTTPBearer example_globals
                         (answering null_content_answer) example_request))
       = 500.
Proof.
  apply (X10_null_field_is_not_defaulted HTTPBearer example_globals
           (answering null_content_answer) example_request example_validated
           null_content_answer
           [("model", JStr "llama3"); ("message", JObj [("content", JNull)])]).
  - apply (example_authorized example_body).
  - reflexivity.
  - reflexivity.
  - unfold is_error_status. simpl. lia.
  - reflexivity.
  - apply (null_content _ [("content", JNull)]); reflexivity.
Defined.

Lemma X11_witness :
  exists r1 r2,
    fst (post_chat_completions HTTPBearer example_globals example_world
           example_request) = Ok200 r1
    /\ fst (post_chat_completions HTTPBearer example_globals later_world
              (with_body empty_messages_body)) = Ok200 r2
    /\ ChatCompletionResponse.id r1 = ChatCompletionResponse.id r2
    /\ ChatCompletionResponse.id r1 = "chatcmpl-" ++ "3f2b8c1e"
    /\ ChatCompletionResponse.created r1 = ChatCompletionResponse.created r2
    /\ ChatCompletionResponse.created r1 = 1700000000.
Proof.
  do 2 eexists. split; [reflexivity|]. split; [reflexivity|].
  apply (X11_responses_share_id_and_created HTTPBearer (Some "secret")
           "3f2b8c1e" 1700000000 example_world later_world example_request
           (with_body empty_messages_body)); reflexivity.
Defined.

(** A client that asks for streaming is served as one that does not. *)
Lemma X12_witness :
  post_chat_completions HTTPBearer example_globals example_world
    {| Authorization := Some "Bearer secret"; body := streaming_body |}
  = post_chat_completions HTTPBearer example_globals example_world
      {| Authorization := Some "Bearer secret"; body := example_body |}.
Proof.
  apply (X12_undeclared_key_ignored HTTPBearer example_globals example_world
           (Some "Bearer secret") "stream" (JBool true)); discriminate.
Defined.

Lemma X13_witness :
  exists api_key request r d,
    authenticate HTTPBearer example_globals example_request = inr api_key
    /\ ChatCompletionRequest.validate (body example_request) = Some request
    /\ network example_world (ollama_call request) = requests.Answered r
    /\ ~ is_error_status (requests.status_code r)
    /\ requests.body r = inr (JObj d)
    /\ (dict_get d "message" = None
        \/ exists m, dict_get d "message" = Some (JObj m)).
Proof.
  eapply (X13_ok_only_from_answered_object HTTPBearer example_globals
            example_world example_request).
  reflexivity.
Defined.
